(** * Proxmox VE integration: descriptor tables and unit conversions

    A shallow embedding of [homeassistant/components/proxmoxve/const.py]:
    the command vocabulary, the descriptor tables for binary sensors,
    sensors, calculated sensors, switches and buttons, the conversion and
    calculation lambdas the sensor descriptors carry, and the two lists
    derived from the tables ([PARSE_DATA], [PROXMOX_SENSOR_TYPES_ALL]).

    Numbers.  Python's [int] and [float] values are embedded as exact
    rationals ([Q]): [/] is true division and raises [ZeroDivisionError] on
    a zero divisor, [*] and [-] are exact, and [round(x, n)] rounds the
    exact value of [x] to [n] decimal places, ties going to the even
    neighbour.  The representation error of binary floating point is
    outside this model. *)

From Stdlib Require Import QArith Qround Qabs ZArith Lia Lqa.
From stdpp Require Import gmap strings list.

(** ** Python values and exceptions *)

Module Py.

(** The exceptions the embedded expressions can raise. *)
Inductive exn : Type :=
| ZeroDivisionError
| KeyError (k : string)
| OverflowError.

(** The outcome of evaluating an expression: a value or a raised
    exception. *)
Inductive result (A : Type) : Type :=
| Ok (a : A)
| Raise (e : exn).
Arguments Ok {A} a.
Arguments Raise {A} e.

Definition bind {A B : Type} (r : result A) (k : A -> result B) : result B :=
  match r with
  | Ok a => k a
  | Raise e => Raise e
  end.

#[export] Instance result_ret : MRet result := @Ok.
#[export] Instance result_bind : MBind result :=
  fun A B k r => bind r k.

Definition is_ok {A : Type} (r : result A) : bool :=
  match r with Ok _ => true | Raise _ => false end.

(** [datetime.timedelta], normalised as Python stores it:
    [0 <= seconds < 86400] and [0 <= microseconds < 1000000]. *)
Record timedelta : Type := Timedelta
  { days : Z; seconds : Z; microseconds : Z }.

(** What a conversion lambda can return. *)
Inductive value : Type :=
| VNum (q : Q)
| VTimedelta (t : timedelta).

(** The nearest integer, a tie going to the even one. *)
Definition round_half_even (x : Q) : Z :=
  let f := Qfloor x in
  match (x - inject_Z f ?= 1 # 2)%Q with
  | Lt => f
  | Gt => (f + 1)%Z
  | Eq => if Z.even f then f else (f + 1)%Z
  end.

(** [round(x, ndigits)]. *)
Definition round (x : Q) (ndigits : Z) : Q :=
  if (0 <=? ndigits)%Z
  then round_half_even (x * inject_Z (10 ^ ndigits)) # Z.to_pos (10 ^ ndigits)
  else inject_Z (round_half_even (x / inject_Z (10 ^ (- ndigits)))
                 * 10 ^ (- ndigits)).

(** [a / b]. *)
Definition truediv (a b : Q) : result Q :=
  if Qeq_bool b 0 then Raise ZeroDivisionError else Ok (a / b)%Q.

(** [x[k]] on a dict. *)
Definition getitem (x : gmap string Q) (k : string) : result Q :=
  match x !! k with
  | Some v => Ok v
  | None => Raise (KeyError k)
  end.

(** [timedelta(seconds=x)]: the duration is rounded to whole
    microseconds and split into days, seconds and microseconds; more than
    999999999 days in either direction is an [OverflowError]. *)
Definition timedelta_of_seconds (x : Q) : result timedelta :=
  let us := round_half_even (x * inject_Z 1000000) in
  let d := (us / 86400000000)%Z in
  if ((d <? -999999999) || (999999999 <? d))%Z
  then Raise OverflowError
  else Ok {| days := d;
             seconds := ((us mod 86400000000) / 1000000)%Z;
             microseconds := (us mod 1000000)%Z |}.

End Py.

Import Py.

(** ** Descriptor records *)

(** Units of measurement imported from [homeassistant.const]. *)
Inductive unit_of_measurement : Type :=
| ATTR_TIME
| DATA_GIGABYTES
| DATA_RATE_MEGABYTES_PER_SECOND
| PERCENTAGE.

(** [homeassistant.components.sensor.SensorStateClass], as far as the
    tables use it. *)
Inductive SensorStateClass : Type :=
| MEASUREMENT.

(** Modelled from the spec: the description dataclasses, which [const.py]
    imports from [model.py] and which are built on the host framework's
    entity descriptions.  Following the spec's data model, every descriptor
    has a key, a display icon and an optional enablement default flag; a
    metric descriptor adds optional units (metric and imperial variants and
    the native unit), a conversion function from the raw value to the
    display value, an optional derivation function over the raw fields
    ([calculation]) and an optional state classification tag; a toggle
    descriptor pairs a start command with a stop command.  A field holds
    [None] where [const.py] passes no such keyword argument, so each table
    entry below lists exactly the arguments the source gives. *)
Record EntityDescription : Type :=
  { key : string;
    icon : string;
    entity_registry_enabled_default : option bool }.

(** Modelled from the spec: the binary sensor description of [model.py],
    an entity description with no field of its own in the tables. *)
Record ProxmoxBinarySensorDescription : Type :=
  { binary_sensor_entity :> EntityDescription }.

(** Modelled from the spec: the metric descriptor of [model.py], also used
    for calculated metrics, which pass a [calculation]. *)
Record ProxmoxSensorDescription : Type :=
  { sensor_entity :> EntityDescription;
    unit_metric : option unit_of_measurement;
    unit_imperial : option unit_of_measurement;
    native_unit_of_measurement : option unit_of_measurement;
    conversion : option (Q -> result value);
    calculation : option (gmap string Q -> result Q);
    state_class : option SensorStateClass }.

(** Modelled from the spec: the toggle descriptor of [model.py]. *)
Record ProxmoxSwitchDescription : Type :=
  { switch_entity :> EntityDescription;
    start_command : string;
    stop_command : string }.

(** Modelled from the spec: the command descriptor of [model.py]. *)
Record ProxmoxButtonDescription : Type :=
  { button_entity :> EntityDescription }.


(** ** Commands *)

Definition COMMAND_REBOOT : string := "reboot".
Definition COMMAND_RESUME : string := "resume".
Definition COMMAND_SHUTDOWN : string := "shutdown".
Definition COMMAND_START : string := "start".
Definition COMMAND_STOP : string := "stop".
Definition COMMAND_SUSPEND : string := "suspend".

Definition VM_COMMANDS : list string :=
  [ COMMAND_REBOOT;
    COMMAND_RESUME;
    COMMAND_SHUTDOWN;
    COMMAND_START;
    COMMAND_STOP;
    COMMAND_SUSPEND ].

(** ** The conversion and calculation lambdas *)

Module Lambda.

(** [lambda x: timedelta(seconds=x)] *)
Definition uptime_conversion (x : Q) : result value :=
  t ← timedelta_of_seconds x; mret (VTimedelta t).

(** [lambda x: round(x / 1073741824, 2)] *)
Definition gigabytes_conversion (x : Q) : result value :=
  q ← truediv x 1073741824; mret (VNum (round q 2)).

(** [lambda x: round(x / 1048576, 2)] *)
Definition megabytes_conversion (x : Q) : result value :=
  q ← truediv x 1048576; mret (VNum (round q 2)).

(** [lambda x: round(x * 100, 1)] *)
Definition percentage_conversion (x : Q) : result value :=
  mret (VNum (round (x * 100) 1)).

(** [lambda x: 1 - x["disk"] / x["maxdisk"]] and
    [lambda x: 1 - x["mem"] / x["maxmem"]]: the two subscripts are
    evaluated left to right, then the division, then the subtraction. *)
Definition free_fraction (used max : string) (x : gmap string Q) : result Q :=
  a ← getitem x used;
  b ← getitem x max;
  q ← truediv a b;
  mret (1 - q)%Q.

End Lambda.

(** ** The tables *)

Definition PROXMOX_BINARYSENSOR_TYPES : list ProxmoxBinarySensorDescription :=
  [ {| binary_sensor_entity :=
         {| key := "status"; icon := "mdi:server";
            entity_registry_enabled_default := None |} |} ].

Definition PROXMOX_SENSOR_TYPES : list ProxmoxSensorDescription :=
  [ {| sensor_entity :=
         {| key := "uptime"; icon := "mdi:database-clock-outline";
            entity_registry_enabled_default := None |};
       unit_metric := Some ATTR_TIME;
       unit_imperial := Some ATTR_TIME;
       native_unit_of_measurement := None;
       conversion := Some Lambda.uptime_conversion;
       calculation := None;
       state_class := Some MEASUREMENT |};
    {| sensor_entity :=
         {| key := "disk"; icon := "mdi:harddisk";
            entity_registry_enabled_default := None |};
       unit_metric := None;
       unit_imperial := None;
       native_unit_of_measurement := Some DATA_GIGABYTES;
       conversion := Some Lambda.gigabytes_conversion;
       calculation := None;
       state_class := Some MEASUREMENT |};
    {| sensor_entity :=
         {| key := "maxdisk"; icon := "mdi:harddisk-plus";
            entity_registry_enabled_default := Some false |};
       unit_metric := None;
       unit_imperial := None;
       native_unit_of_measurement := Some DATA_GIGABYTES;
       conversion := Some Lambda.gigabytes_conversion;
       calculation := None;
       state_class := Some MEASUREMENT |};
    {| sensor_entity :=
         {| key := "diskread"; icon := "mdi:harddisk";
            entity_registry_enabled_default := Some false |};
       unit_metric := None;
       unit_imperial := None;
       native_unit_of_measurement := Some DATA_RATE_MEGABYTES_PER_SECOND;
       conversion := Some Lambda.megabytes_conversion;
       calculation := None;
       state_class := Some MEASUREMENT |};
    {| sensor_entity :=
         {| key := "diskwrite"; icon := "mdi:harddisk";
            entity_registry_enabled_default := Some false |};
       unit_metric := None;
       unit_imperial := None;
       native_unit_of_measurement := Some DATA_RATE_MEGABYTES_PER_SECOND;
       conversion := Some Lambda.megabytes_conversion;
       calculation := None;
       state_class := Some MEASUREMENT |};
    {| sensor_entity :=
         {| key := "cpus"; icon := "mdi:cpu-64-bit";
            entity_registry_enabled_default := Some false |};
       unit_metric := None;
       unit_imperial := None;
       native_unit_of_measurement := None;
       conversion := None;
       calculation := None;
       state_class := Some MEASUREMENT |};
    {| sensor_entity :=
         {| key := "cpu"; icon := "mdi:cpu-64-bit";
            entity_registry_enabled_default := None |};
       unit_metric := Some PERCENTAGE;
       unit_imperial := Some PERCENTAGE;
       native_unit_of_measurement := Some PERCENTAGE;
       conversion := Some Lambda.percentage_conversion;
       calculation := None;
       state_class := Some MEASUREMENT |};
    {| sensor_entity :=
         {| key := "mem"; icon := "mdi:memory";
            entity_registry_enabled_default := None |};
       unit_metric := None;
       unit_imperial := None;
       native_unit_of_measurement := Some DATA_GIGABYTES;
       conversion := Some Lambda.gigabytes_conversion;
       calculation := None;
       state_class := Some MEASUREMENT |};
    {| sensor_entity :=
         {| key := "maxmem"; icon := "mdi:memory";
            entity_registry_enabled_default := Some false |};
       unit_metric := None;
       unit_imperial := None;
       native_unit_of_measurement := Some DATA_GIGABYTES;
       conversion := Some Lambda.gigabytes_conversion;
       calculation := None;
       state_class := Some MEASUREMENT |};
    {| sensor_entity :=
         {| key := "netin"; icon := "mdi:mdi:download-network-outline";
            entity_registry_enabled_default := Some false |};
       unit_metric := None;
       unit_imperial := None;
       native_unit_of_measurement := Some DATA_RATE_MEGABYTES_PER_SECOND;
       conversion := Some Lambda.megabytes_conversion;
       calculation := None;
       state_class := Some MEASUREMENT |};
    {| sensor_entity :=
         {| key := "netout"; icon := "mdi:upload-network-outline";
            entity_registry_enabled_default := Some false |};
       unit_metric := None;
       unit_imperial := None;
       native_unit_of_measurement := Some DATA_RATE_MEGABYTES_PER_SECOND;
       conversion := Some Lambda.megabytes_conversion;
       calculation := None;
       state_class := Some MEASUREMENT |} ].

Definition PROXMOX_CALCULATED_SENSOR_TYPES : list ProxmoxSensorDescription :=
  [ {| sensor_entity :=
         {| key := "disk_pct_free"; icon := "mdi:harddisk";
            entity_registry_enabled_default := None |};
       unit_metric := Some PERCENTAGE;
       unit_imperial := Some PERCENTAGE;
       native_unit_of_measurement := Some PERCENTAGE;
       conversion := Some Lambda.percentage_conversion;
       calculation := Some (Lambda.free_fraction "disk" "maxdisk");
       state_class := Some MEASUREMENT |};
    {| sensor_entity :=
         {| key := "mem_pct_free"; icon := "mdi:memory";
            entity_registry_enabled_default := None |};
       unit_metric := Some PERCENTAGE;
       unit_imperial := Some PERCENTAGE;
       native_unit_of_measurement := Some PERCENTAGE;
       conversion := Some Lambda.percentage_conversion;
       calculation := Some (Lambda.free_fraction "mem" "maxmem");
       state_class := Some MEASUREMENT |} ].

Definition PROXMOX_SWITCH_TYPES : list ProxmoxSwitchDescription :=
  [ {| switch_entity :=
         {| key := "Switch"; icon := "mdi:server";
            entity_registry_enabled_default := None |};
       start_command := COMMAND_START;
       stop_command := COMMAND_SHUTDOWN |};
    {| switch_entity :=
         {| key := "Switch_Stop"; icon := "mdi:server";
            entity_registry_enabled_default := None |};
       start_command := COMMAND_START;
       stop_command := COMMAND_STOP |} ].

Definition PROXMOX_BUTTON_TYPES : list ProxmoxButtonDescription :=
  [ {| button_entity :=
         {| key := COMMAND_REBOOT; icon := "mdi:restart";
            entity_registry_enabled_default := None |} |};
    {| button_entity :=
         {| key := COMMAND_START; icon := "mdi:server";
            entity_registry_enabled_default := None |} |};
    {| button_entity :=
         {| key := COMMAND_SHUTDOWN; icon := "mdi:server-off";
            entity_registry_enabled_default := None |} |};
    {| button_entity :=
         {| key := COMMAND_STOP; icon := "mdi:stop";
            entity_registry_enabled_default := None |} |};
    {| button_entity :=
         {| key := COMMAND_RESUME; icon := "mdi:play";
            entity_registry_enabled_default := Some false |} |};
    {| button_entity :=
         {| key := COMMAND_SUSPEND; icon := "mdi:pause";
            entity_registry_enabled_default := Some false |} |} ].

(** [[sensor.key for sensor in PROXMOX_SENSOR_TYPES +
    PROXMOX_BINARYSENSOR_TYPES] + ["name"]]: the two tuples are
    concatenated as tuples of entity descriptions before the keys are
    read. *)
Definition PARSE_DATA : list string :=
  map key (map sensor_entity PROXMOX_SENSOR_TYPES
           ++ map binary_sensor_entity PROXMOX_BINARYSENSOR_TYPES)
  ++ ["name"].

Definition PROXMOX_SENSOR_TYPES_ALL : list ProxmoxSensorDescription :=
  PROXMOX_SENSOR_TYPES ++ PROXMOX_CALCULATED_SENSOR_TYPES.

(** The keys of a table, in table order. *)
Definition keys {D : Type} (entity : D -> EntityDescription) (table : list D)
  : list string :=
  map (fun d => key (entity d)) table.

(** The raw fields the specification names for each calculated sensor: the
    used amount and the maximum it is divided by. *)
Definition pct_free_fields (k : string) : option (string * string) :=
  if decide (k = "disk_pct_free") then Some ("disk", "maxdisk")
  else if decide (k = "mem_pct_free") then Some ("mem", "maxmem")
  else None.

(** ** Node types and durations *)

(** [class Node_Type(Enum)]: a node is a virtual machine or a container. *)
Inductive Node_Type : Type :=
| TYPE_VM
| TYPE_CONTAINER.

(** The [value] of a member. *)
Definition Node_Type_value (t : Node_Type) : Z :=
  match t with
  | TYPE_VM => 0
  | TYPE_CONTAINER => 1
  end.


(** * Properties *)

(** Membership in a table written out: one goal per table entry. *)
Ltac in_table H :=
  repeat (destruct H as [<- | H]; [| try contradiction]); try contradiction.

(** ** The model on sample inputs *)

Section Samples.
Local Open Scope Q_scope.

Example round_half_even_ties :
  map round_half_even [1 # 2; 3 # 2; 5 # 2; -(1 # 2); -(3 # 2); 7 # 5; -(7 # 5)]
  = [0; 2; 2; 0; -2; 1; -1]%Z.
Proof. reflexivity. Qed.

Example round_samples :
  round (1 # 8) 2 = 12 # 100 /\
  round (3 # 8) 2 = 38 # 100 /\
  round (1234567 # 1000) 1 = 12346 # 10 /\
  round 1234 (-2) = 1200.
Proof. repeat split. Qed.

Example conversion_samples :
  Lambda.gigabytes_conversion 5368709120 = Ok (VNum (500 # 100)) /\
  Lambda.megabytes_conversion 1572864 = Ok (VNum (150 # 100)) /\
  Lambda.percentage_conversion (1234 # 10000) = Ok (VNum (123 # 10)) /\
  Lambda.uptime_conversion 90061
  = Ok (VTimedelta {| days := 1; seconds := 3661; microseconds := 0 |}).
Proof. repeat split. Qed.

Example timedelta_samples :
  timedelta_of_seconds (90061 + (1 # 4))
  = Ok {| days := 1; seconds := 3661; microseconds := 250000 |} /\
  timedelta_of_seconds (-(3 # 2))
  = Ok {| days := -1; seconds := 86398; microseconds := 500000 |} /\
  timedelta_of_seconds 86400000000000 = Raise OverflowError.
Proof. repeat split. Qed.

Example free_fraction_samples :
  Lambda.free_fraction "disk" "maxdisk" {[ "disk" := 3; "maxdisk" := 8 ]}
  = Ok (1 - 3 / 8) /\
  Lambda.free_fraction "disk" "maxdisk" {[ "disk" := 3; "maxdisk" := 0 ]}
  = Raise ZeroDivisionError /\
  Lambda.free_fraction "disk" "maxdisk" {[ "maxdisk" := 0 ]}
  = Raise (KeyError "disk") /\
  Lambda.free_fraction "disk" "maxdisk" {[ "disk" := 3 ]}
  = Raise (KeyError "maxdisk").
Proof. repeat split. Qed.

End Samples.

(** ** Rounding *)

Section RoundFacts.
Local Open Scope Q_scope.



Lemma round_half_even_Z (z : Z) : round_half_even (inject_Z z) = z.
Proof.
  unfold round_half_even. rewrite Qfloor_Z.
  destruct (Qcompare_spec (inject_Z z - inject_Z z) (1 # 2)) as [He | Hl | Hg];
    [lra | reflexivity | lra].
Qed.

(** Equal rationals, however they are written, round to the same integer. *)
#[export] Instance round_half_even_proper : Proper (Qeq ==> eq) round_half_even.
Proof.
  intros x y Hxy. unfold round_half_even.
  rewrite (Qfloor_comp _ _ Hxy).
  assert (Hc : (x - inject_Z (Qfloor y) ?= 1 # 2)
               = (y - inject_Z (Qfloor y) ?= 1 # 2))
    by (apply Qcompare_comp; [rewrite Hxy |]; reflexivity).
  now rewrite Hc.
Qed.





#[export] Instance round_proper : Proper (Qeq ==> eq ==> eq) round.
Proof.
  intros x y Hxy nd ? <-. unfold round.
  destruct (0 <=? nd)%Z; now rewrite Hxy.
Qed.

#[export] Instance round_proper_Qeq : Proper (Qeq ==> eq ==> Qeq) round.
Proof.
  intros x y Hxy nd ? <-. now rewrite (round_proper x y Hxy nd nd eq_refl).
Qed.











End RoundFacts.

(** ** The lambdas *)

Section LambdaFacts.
Local Open Scope Q_scope.

Lemma truediv_nonzero (a b : Q) : ~ b == 0 -> truediv a b = Ok (a / b).
Proof.
  intros Hb. unfold truediv.
  destruct (Qeq_bool b 0) eqn:E; [| reflexivity].
  apply Qeq_bool_iff in E. contradiction.
Qed.

Lemma truediv_zero (a b : Q) : b == 0 -> truediv a b = Raise ZeroDivisionError.
Proof.
  intros Hb. unfold truediv. now rewrite (proj2 (Qeq_bool_iff b 0) Hb).
Qed.

(** The divisors of the byte conversions are non-zero literals, so these
    lambdas never raise. *)
Lemma gigabytes_conversion_eq (x : Q) :
  Lambda.gigabytes_conversion x = Ok (VNum (round (x / 1073741824) 2)).
Proof. reflexivity. Qed.

Lemma megabytes_conversion_eq (x : Q) :
  Lambda.megabytes_conversion x = Ok (VNum (round (x / 1048576) 2)).
Proof. reflexivity. Qed.








(** A missing field is a [KeyError], raised before any division: the
    used field is looked up first. *)
Lemma free_fraction_missing_field (num den : string) (x : gmap string Q) :
  (x !! num = None ->
   Lambda.free_fraction num den x = Raise (KeyError num)) /\
  (forall used : Q, x !! num = Some used -> x !! den = None ->
   Lambda.free_fraction num den x = Raise (KeyError den)).
Proof.
  unfold Lambda.free_fraction, getitem. split.
  - now intros ->.
  - now intros used -> ->.
Qed.

(** Nothing guards the division: a zero maximum never yields a value. *)
Lemma free_fraction_no_guard (num den : string) (x : gmap string Q) (max : Q) :
  x !! den = Some max -> max == 0 ->
  is_ok (Lambda.free_fraction num den x) = false.
Proof.
  intros Hd Hz. unfold Lambda.free_fraction, getitem. rewrite Hd.
  destruct (x !! num) as [used |]; [| reflexivity].
  simpl. now rewrite truediv_zero.
Qed.

End LambdaFacts.

(** ** The conversions of the sensor tables *)

Section ConversionClaims.
Local Open Scope Q_scope.










End ConversionClaims.

(** ** The calculated sensors *)

Section CalculationClaims.
Local Open Scope Q_scope.



Example free_percentage_sample :
  round ((1 - 3 / 8) * 100) 1 = 625 # 10.
Proof. reflexivity. Qed.



End CalculationClaims.

(** ** The tables *)

Section TableClaims.

Lemma NoDup_distinct_indices (l : list string) :
  NoDup l ->
  forall (i j : nat) (a b : string),
    i <> j -> l !! i = Some a -> l !! j = Some b -> a <> b.
Proof.
  intros Hnd i j a b Hij Ha Hb Hab. subst b.
  apply Hij. exact (proj1 (NoDup_alt l) Hnd i j a Ha Hb).
Qed.

Lemma keys_NoDup :
  NoDup (keys binary_sensor_entity PROXMOX_BINARYSENSOR_TYPES) /\
  NoDup (keys sensor_entity PROXMOX_SENSOR_TYPES) /\
  NoDup (keys sensor_entity PROXMOX_CALCULATED_SENSOR_TYPES) /\
  NoDup (keys switch_entity PROXMOX_SWITCH_TYPES) /\
  NoDup (keys button_entity PROXMOX_BUTTON_TYPES) /\
  NoDup (keys sensor_entity PROXMOX_SENSOR_TYPES_ALL).
Proof. repeat split; apply (bool_decide_unpack _); vm_compute; exact I. Qed.

(** C6: within each descriptor table (binary sensors, sensors, calculated
    sensors, switches, buttons, and the concatenation
    [PROXMOX_SENSOR_TYPES_ALL]) the keys at two distinct indices differ. *)
Theorem keys_distinct_within_each_table (i j : nat) (a b : string) :
  i <> j ->
  (keys binary_sensor_entity PROXMOX_BINARYSENSOR_TYPES !! i = Some a ->
   keys binary_sensor_entity PROXMOX_BINARYSENSOR_TYPES !! j = Some b -> a <> b) /\
  (keys sensor_entity PROXMOX_SENSOR_TYPES !! i = Some a ->
   keys sensor_entity PROXMOX_SENSOR_TYPES !! j = Some b -> a <> b) /\
  (keys sensor_entity PROXMOX_CALCULATED_SENSOR_TYPES !! i = Some a ->
   keys sensor_entity PROXMOX_CALCULATED_SENSOR_TYPES !! j = Some b -> a <> b) /\
  (keys switch_entity PROXMOX_SWITCH_TYPES !! i = Some a ->
   keys switch_entity PROXMOX_SWITCH_TYPES !! j = Some b -> a <> b) /\
  (keys button_entity PROXMOX_BUTTON_TYPES !! i = Some a ->
   keys button_entity PROXMOX_BUTTON_TYPES !! j = Some b -> a <> b) /\
  (keys sensor_entity PROXMOX_SENSOR_TYPES_ALL !! i = Some a ->
   keys sensor_entity PROXMOX_SENSOR_TYPES_ALL !! j = Some b -> a <> b).
Proof.
  intros Hij.
  destruct keys_NoDup as (H1 & H2 & H3 & H4 & H5 & H6).
  repeat match goal with |- _ /\ _ => split end;
    intros Ha Hb; eauto using NoDup_distinct_indices.
Qed.

Lemma keys_distinct_within_each_table_witness :
  0%nat <> 12%nat /\
  keys sensor_entity PROXMOX_SENSOR_TYPES_ALL !! 0%nat = Some "uptime" /\
  keys sensor_entity PROXMOX_SENSOR_TYPES_ALL !! 12%nat = Some "mem_pct_free" /\
  "uptime" <> "mem_pct_free".
Proof.
  split; [lia |]. split; [reflexivity |]. split; [reflexivity |].
  exact (proj2 (proj2 (proj2 (proj2 (proj2
           (keys_distinct_within_each_table
              0 12 "uptime" "mem_pct_free" ltac:(lia))))))
           eq_refl eq_refl).
Defined.

(** C7: both the start command and the stop command of every switch
    descriptor belong to [VM_COMMANDS], the vocabulary reboot, resume,
    shutdown, start, stop, suspend. *)
Theorem switch_commands_in_vocabulary (d : ProxmoxSwitchDescription) :
  In d PROXMOX_SWITCH_TYPES ->
  In (start_command d) VM_COMMANDS /\
  In (stop_command d) VM_COMMANDS /\
  VM_COMMANDS = ["reboot"; "resume"; "shutdown"; "start"; "stop"; "suspend"].
Proof.
  intros Hd. in_table Hd; repeat split; simpl; tauto.
Qed.

Lemma switch_commands_in_vocabulary_witness :
  exists d : ProxmoxSwitchDescription,
    In d PROXMOX_SWITCH_TYPES /\
    key d = "Switch_Stop" /\
    In (start_command d) VM_COMMANDS /\
    In (stop_command d) VM_COMMANDS /\
    VM_COMMANDS = ["reboot"; "resume"; "shutdown"; "start"; "stop"; "suspend"].
Proof.
  eexists. split; [right; left; reflexivity |].
  split; [reflexivity |].
  apply switch_commands_in_vocabulary. right; left; reflexivity.
Defined.

(** C9: [PARSE_DATA] is the keys of [PROXMOX_SENSOR_TYPES], then the keys
    of [PROXMOX_BINARYSENSOR_TYPES], then "name": thirteen entries, none of
    them the key of a calculated sensor descriptor ("disk_pct_free" and
    "mem_pct_free" are absent). *)
Theorem parse_data_contents :
  PARSE_DATA
  = keys sensor_entity PROXMOX_SENSOR_TYPES
    ++ keys binary_sensor_entity PROXMOX_BINARYSENSOR_TYPES
    ++ ["name"] /\
  PARSE_DATA
  = ["uptime"; "disk"; "maxdisk"; "diskread"; "diskwrite"; "cpus"; "cpu";
     "mem"; "maxmem"; "netin"; "netout"; "status"; "name"] /\
  length PARSE_DATA = 13%nat /\
  Forall (fun d : ProxmoxSensorDescription => ~ In (key d) PARSE_DATA)
    PROXMOX_CALCULATED_SENSOR_TYPES /\
  ~ In "disk_pct_free" PARSE_DATA /\
  ~ In "mem_pct_free" PARSE_DATA.
Proof.
  repeat match goal with |- _ /\ _ => split end; try reflexivity.
  - repeat constructor; simpl; intuition discriminate.
  - simpl; intuition discriminate.
  - simpl; intuition discriminate.
Qed.

Lemma button_keys :
  keys button_entity PROXMOX_BUTTON_TYPES
  = ["reboot"; "start"; "shutdown"; "stop"; "resume"; "suspend"].
Proof. reflexivity. Qed.



End TableClaims.

(** * Further properties *)

(** ** Uptime as a duration *)

Section UptimeFacts.
Local Open Scope Q_scope.


(** On a whole number of seconds the split is by 86400, and the range of
    days is the only way to fail. *)
Lemma timedelta_of_whole_seconds (s : Z) :
  timedelta_of_seconds (inject_Z s)
  = if ((s <? -86399999913600) || (86399999999999 <? s))%Z
    then Raise OverflowError
    else Ok {| days := s / 86400; seconds := s mod 86400; microseconds := 0 |}.
Proof.
  unfold timedelta_of_seconds.
  rewrite <- inject_Z_mult, round_half_even_Z.
  assert (Hd : (s * 1000000 / 86400000000 = s / 86400)%Z)
    by (Z.div_mod_to_equations; lia).
  assert (Hs : (s * 1000000 mod 86400000000 / 1000000 = s mod 86400)%Z)
    by (Z.div_mod_to_equations; lia).
  assert (Hu : (s * 1000000 mod 1000000 = 0)%Z)
    by (Z.div_mod_to_equations; lia).
  rewrite Hd, Hs, Hu.
  destruct (Z.ltb_spec (s / 86400) (-999999999));
    destruct (Z.ltb_spec 999999999 (s / 86400));
    destruct (Z.ltb_spec s (-86399999913600));
    destruct (Z.ltb_spec 86399999999999 s);
    simpl; try reflexivity; exfalso; Z.div_mod_to_equations; lia.
Qed.



(** X2: on a whole number of seconds [s] the conversion of the "uptime"
    descriptor returns [s / 86400] days, [s mod 86400] seconds and no
    microseconds when [s] is between -86399999913600 and 86399999999999,
    and raises [OverflowError] outside that range. *)
Theorem uptime_conversion_whole_seconds
    (d : ProxmoxSensorDescription) (f : Q -> result value) (s : Z) :
  In d PROXMOX_SENSOR_TYPES_ALL ->
  key d = "uptime" ->
  conversion d = Some f ->
  ((-86399999913600 <= s <= 86399999999999)%Z ->
   f (inject_Z s)
   = Ok (VTimedelta {| days := s / 86400; seconds := s mod 86400;
                       microseconds := 0 |})) /\
  ((s < -86399999913600 \/ 86399999999999 < s)%Z ->
   f (inject_Z s) = Raise OverflowError).
Proof.
  intros Hd Hk Hf.
  in_table Hd; try discriminate Hk. injection Hf as <-.
  unfold Lambda.uptime_conversion. rewrite timedelta_of_whole_seconds.
  destruct (Z.ltb_spec s (-86399999913600));
    destruct (Z.ltb_spec 86399999999999 s); simpl;
    split; intros; try reflexivity; lia.
Qed.

Lemma uptime_conversion_whole_seconds_witness :
  exists (d : ProxmoxSensorDescription) (f : Q -> result value),
    In d PROXMOX_SENSOR_TYPES_ALL /\
    key d = "uptime" /\
    conversion d = Some f /\
    ((-86399999913600 <= 86400000000000 <= 86399999999999)%Z ->
     f (inject_Z 86400000000000)
     = Ok (VTimedelta {| days := 86400000000000 / 86400;
                         seconds := 86400000000000 mod 86400;
                         microseconds := 0 |})) /\
    ((86400000000000 < -86399999913600 \/ 86399999999999 < 86400000000000)%Z ->
     f (inject_Z 86400000000000) = Raise OverflowError).
Proof.
  eexists _, _. split; [left; reflexivity |].
  split; [reflexivity |]. split; [reflexivity |].
  eapply uptime_conversion_whole_seconds;
    [left; reflexivity | reflexivity | reflexivity].
Defined.

End UptimeFacts.

(** ** The numeric conversions as functions of the raw value *)

Section ConversionFacts.
Local Open Scope Q_scope.











End ConversionFacts.

(** ** The free percentage as a function of its two fields *)

Section FreePercentageFacts.
Local Open Scope Q_scope.









Example free_percentage_below_zero :
  (Lambda.free_fraction "mem" "maxmem" {[ "mem" := 9; "maxmem" := 8 ]}
   ≫= Lambda.percentage_conversion)
  = Ok (VNum (-125 # 10)).
Proof. reflexivity. Qed.



End FreePercentageFacts.

(** ** What the calculations read *)

Section CalculationInputFacts.
Local Open Scope Q_scope.

(** The two fields of a calculated descriptor are distinct keys of raw
    sensors, and its calculation is the free fraction over them. *)
Lemma calculation_of_key
    (d : ProxmoxSensorDescription) (num den : string)
    (calc : gmap string Q -> result Q) :
  In d PROXMOX_CALCULATED_SENSOR_TYPES ->
  pct_free_fields (key d) = Some (num, den) ->
  calculation d = Some calc ->
  calc = Lambda.free_fraction num den /\
  In num (keys sensor_entity PROXMOX_SENSOR_TYPES) /\
  In den (keys sensor_entity PROXMOX_SENSOR_TYPES).
Proof.
  intros Hd Hk Hc.
  in_table Hd; cbv in Hk; inversion Hk; subst num den;
    injection Hc as <-; (split; [reflexivity |]); simpl; tauto.
Qed.


Lemma free_fraction_reads_two_fields (num den : string) (x y : gmap string Q) :
  x !! num = y !! num -> x !! den = y !! den ->
  Lambda.free_fraction num den x = Lambda.free_fraction num den y.
Proof.
  intros Hn Hm. unfold Lambda.free_fraction, getitem. now rewrite Hn, Hm.
Qed.

(** X10: a calculation applied to a mapping without the used field raises
    [KeyError] for that field, whatever the maximum is; with the used field
    present and the maximum missing it raises [KeyError] for the
    maximum. *)
Theorem calculation_missing_field
    (d : ProxmoxSensorDescription) (num den : string)
    (calc : gmap string Q -> result Q) (x : gmap string Q) :
  In d PROXMOX_CALCULATED_SENSOR_TYPES ->
  pct_free_fields (key d) = Some (num, den) ->
  calculation d = Some calc ->
  (x !! num = None -> calc x = Raise (KeyError num)) /\
  (is_Some (x !! num) -> x !! den = None -> calc x = Raise (KeyError den)).
Proof.
  intros Hd Hk Hc.
  destruct (calculation_of_key d num den calc Hd Hk Hc) as (-> & _).
  destruct (free_fraction_missing_field num den x) as [H1 H2].
  split; [assumption |]. intros [used Hu]. eauto.
Qed.

Lemma calculation_missing_field_witness :
  exists (d : ProxmoxSensorDescription) (calc : gmap string Q -> result Q),
    In d PROXMOX_CALCULATED_SENSOR_TYPES /\
    pct_free_fields (key d) = Some ("disk", "maxdisk") /\
    calculation d = Some calc /\
    (({[ "maxdisk" := 0 ]} : gmap string Q) !! "disk" = None ->
     calc {[ "maxdisk" := 0 ]} = Raise (KeyError "disk")) /\
    (is_Some (({[ "maxdisk" := 0 ]} : gmap string Q) !! "disk") ->
     ({[ "maxdisk" := 0 ]} : gmap string Q) !! "maxdisk" = None ->
     calc {[ "maxdisk" := 0 ]} = Raise (KeyError "maxdisk")).
Proof.
  eexists _, _. split; [left; reflexivity |].
  do 2 (split; [reflexivity |]).
  eapply (calculation_missing_field _ "disk" "maxdisk");
    [left; reflexivity | reflexivity | reflexivity].
Defined.



(** X12: a calculation depends on its two fields only: two mappings that
    agree on them give the same result, so adding, changing or removing
    any other entry changes nothing. *)
Theorem calculation_reads_two_fields_only
    (d : ProxmoxSensorDescription) (num den : string)
    (calc : gmap string Q -> result Q) (x y : gmap string Q)
    (k : string) (v : Q) :
  In d PROXMOX_CALCULATED_SENSOR_TYPES ->
  pct_free_fields (key d) = Some (num, den) ->
  calculation d = Some calc ->
  (x !! num = y !! num -> x !! den = y !! den -> calc x = calc y) /\
  (k <> num -> k <> den ->
   calc (<[k := v]> x) = calc x /\ calc (delete k x) = calc x).
Proof.
  intros Hd Hk Hc.
  destruct (calculation_of_key d num den calc Hd Hk Hc) as (-> & _).
  split; [apply free_fraction_reads_two_fields |].
  intros Hn Hm.
  split; apply free_fraction_reads_two_fields;
    first [ now apply lookup_insert_ne | now apply lookup_delete_ne ].
Qed.

Lemma calculation_reads_two_fields_only_witness :
  exists (d : ProxmoxSensorDescription) (calc : gmap string Q -> result Q),
    In d PROXMOX_CALCULATED_SENSOR_TYPES /\
    pct_free_fields (key d) = Some ("disk", "maxdisk") /\
    calculation d = Some calc /\
    (({[ "disk" := 3; "maxdisk" := 8 ]} : gmap string Q) !! "disk"
     = ({[ "disk" := 3; "maxdisk" := 8; "cpu" := 1 ]} : gmap string Q) !! "disk" ->
     ({[ "disk" := 3; "maxdisk" := 8 ]} : gmap string Q) !! "maxdisk"
     = ({[ "disk" := 3; "maxdisk" := 8; "cpu" := 1 ]} : gmap string Q) !! "maxdisk" ->
     calc {[ "disk" := 3; "maxdisk" := 8 ]}
     = calc {[ "disk" := 3; "maxdisk" := 8; "cpu" := 1 ]}) /\
    ("cpu" <> "disk" -> "cpu" <> "maxdisk" ->
     calc (<[ "cpu" := 1 # 2 ]> {[ "disk" := 3; "maxdisk" := 8 ]})
     = calc {[ "disk" := 3; "maxdisk" := 8 ]} /\
     calc (delete "cpu" {[ "disk" := 3; "maxdisk" := 8 ]})
     = calc {[ "disk" := 3; "maxdisk" := 8 ]}).
Proof.
  eexists _, _. split; [left; reflexivity |].
  do 2 (split; [reflexivity |]).
  eapply (calculation_reads_two_fields_only _ "disk" "maxdisk");
    [left; reflexivity | reflexivity | reflexivity].
Defined.

End CalculationInputFacts.

(** ** Consistency of the tables *)

Section TableFacts.
Local Open Scope Q_scope.



(** X14: the buttons cover the command vocabulary: the keys of
    [PROXMOX_BUTTON_TYPES] are the commands of [VM_COMMANDS], each exactly
    once, in another order. *)
Theorem buttons_cover_commands :
  keys button_entity PROXMOX_BUTTON_TYPES ≡ₚ VM_COMMANDS.
Proof.
  apply NoDup_Permutation.
  - apply keys_NoDup.
  - apply (bool_decide_unpack _). vm_compute. exact I.
  - intros k. rewrite !list_elem_of_In. simpl.
    unfold COMMAND_REBOOT, COMMAND_RESUME, COMMAND_SHUTDOWN,
      COMMAND_START, COMMAND_STOP, COMMAND_SUSPEND.
    tauto.
Qed.

(** X15: in [PROXMOX_SENSOR_TYPES_ALL] exactly the descriptors of
    [PROXMOX_CALCULATED_SENSOR_TYPES] carry a calculation, each of them
    also carries a conversion to apply afterwards, and no descriptor of
    [PROXMOX_SENSOR_TYPES] carries a calculation. *)
Theorem calculation_only_on_calculated_sensors (d : ProxmoxSensorDescription) :
  In d PROXMOX_SENSOR_TYPES_ALL ->
  (is_Some (calculation d) <-> In d PROXMOX_CALCULATED_SENSOR_TYPES) /\
  (is_Some (calculation d) -> is_Some (conversion d)) /\
  (In d PROXMOX_SENSOR_TYPES -> calculation d = None).
Proof.
  intros Hd.
  in_table Hd; (split; [split | split]).
  all: try (intros [c Hc]; simpl in Hc; first [discriminate Hc | simpl; tauto]).
  all: try (intros Hin; simpl in Hin;
            first [ reflexivity
                  | eexists; reflexivity
                  | exfalso; intuition discriminate ]).
Qed.

Lemma calculation_only_on_calculated_sensors_witness :
  exists d : ProxmoxSensorDescription,
    In d PROXMOX_SENSOR_TYPES_ALL /\
    key d = "disk_pct_free" /\
    (is_Some (calculation d) <-> In d PROXMOX_CALCULATED_SENSOR_TYPES) /\
    (is_Some (calculation d) -> is_Some (conversion d)) /\
    (In d PROXMOX_SENSOR_TYPES -> calculation d = None).
Proof.
  eexists. split; [do 11 right; left; reflexivity |].
  split; [reflexivity |].
  apply calculation_only_on_calculated_sensors.
  do 11 right; left; reflexivity.
Defined.



(** The two node types have the values 0 and 1, and distinct members have
    distinct values, so neither is an alias of the other. *)
Lemma Node_Type_values_distinct (t t' : Node_Type) :
  (Node_Type_value t = Node_Type_value t' <-> t = t') /\
  (Node_Type_value t = 0%Z \/ Node_Type_value t = 1%Z).
Proof.
  destruct t, t'; simpl; intuition (discriminate || auto).
Qed.

End TableFacts.
